(** * GraphQL_Assignment: record store, role checks and pagination

    A shallow embedding of the JavaScript sources
    - [src/core/database/index.js]            (class [Database]),
    - [src/core/auth]                         (class [AuthService]),
    - [src/rest/controllers/baseController]   (class [BaseController]),
    - [src/rest/controllers/nodeController]   (class [NodeController]),
    - [src/graphql/resolvers/*Resolvers.js]   (the [get...s] list queries),
    and the properties the specification states about them.

    Conventions of the embedding.
    - JavaScript numbers are the integers of [Z] together with [NaN]; this
      is exact for magnitudes below 2^53, where the doubles of the run-time
      carry integers without rounding.
    - Strings are sequences of 8-bit code units.
    - A record of a collection is a JSON object, a finite map from field
      names to JSON values; a field that is absent reads as [undefined].
    - A lookup in a plain object (a record, the store, the two tables of
      [AuthService]) also finds the members inherited from
      [Object.prototype].
    - A JavaScript exception is the [Throw] branch of [result]. *)

From Stdlib Require Import ZArith Ascii String Decimal DecimalString DecimalZ.
From stdpp Require Import base option list strings gmap.

Set Warnings "-register-all".
Local Open Scope Z_scope.
Local Open Scope string_scope.

(** ** Exceptions *)

Inductive error : Type :=
  | NotInitialized     (* Error("Database not initialized") *)
  | TypeError.         (* a member read or a call on a value that lacks it *)

Inductive result (A : Type) : Type :=
  | Ok (a : A)
  | Throw (e : error).
Arguments Ok {A} a.
Arguments Throw {A} e.

Definition bind {A B} (r : result A) (k : A -> result B) : result B :=
  match r with
  | Ok a => k a
  | Throw e => Throw e
  end.

Notation "'let*' x ':=' r 'in' k" := (bind r (fun x => k))
  (at level 10, x name, r at level 100, k at level 200).

(** ** The run-time: values, numbers, strings and arrays *)

Inductive value : Type :=
  | VUndefined
  | VNull
  | VBool (b : bool)
  | VNum (n : Z)
  | VStr (s : string)
  | VArr (xs : list value)
  | VObj (fields : gmap string value)
  | VNative (k : string).   (* the member [k] of [Object.prototype] *)

(** The result of arithmetic: an integer or [NaN]. *)
Inductive number : Type :=
  | NaN
  | Num (z : Z).

(** A GraphQL argument or input field: left out, the literal [null], or a
    value.  Left out reads as [undefined] in the resolver. *)
Inductive arg (A : Type) : Type :=
  | Omitted
  | ANull
  | Given (a : A).
Arguments Omitted {A}.
Arguments ANull {A}.
Arguments Given {A} a.

(** The names every plain object inherits from [Object.prototype]. *)
Definition Object_prototype : list string :=
  [ "constructor"; "__proto__"; "hasOwnProperty"; "isPrototypeOf";
    "propertyIsEnumerable"; "toLocaleString"; "toString"; "valueOf";
    "__defineGetter__"; "__defineSetter__"; "__lookupGetter__";
    "__lookupSetter__" ].

(** [o[k]] on a plain object whose own properties are [o]. *)
Inductive member (A : Type) : Type :=
  | Own (a : A)
  | Inherited (k : string)
  | Missing.
Arguments Own {A} a.
Arguments Inherited {A} k.
Arguments Missing {A}.

Definition lookup_member {A} (o : gmap string A) (k : string) : member A :=
  match o !! k with
  | Some a => Own a
  | None => if bool_decide (k ∈ Object_prototype) then Inherited k else Missing
  end.

(** [o[k]] on a record. *)
Definition get (k : string) (o : gmap string value) : value :=
  match lookup_member o k with
  | Own v => v
  | Inherited k => VNative k
  | Missing => VUndefined
  end.

(** [===], and [SameValueZero] as [Array.prototype.includes] applies it.  The
    two agree away from [NaN] and the signed zeros, which JSON text cannot
    denote.  Arrays and objects compare by reference; those met here come
    out of separate [JSON.parse] results or requests, so no two of them are
    one reference. *)
Definition strict_eq (a b : value) : bool :=
  match a, b with
  | VUndefined, VUndefined => true
  | VNull, VNull => true
  | VBool x, VBool y => bool_decide (x = y)
  | VNum x, VNum y => bool_decide (x = y)
  | VStr x, VStr y => bool_decide (x = y)
  | VNative x, VNative y => bool_decide (x = y)
  | _, _ => false
  end.

(** [xs.includes(v)] *)
Definition includes (xs : list value) (v : value) : bool :=
  existsb (fun x => strict_eq x v) xs.

(** [xs.some(p)] *)
Definition some {A} (p : A -> bool) (xs : list A) : bool := existsb p xs.

(** [xs.filter(p)] for a callback that may throw: the first exception
    ends the scan. *)
Fixpoint filterM {A} (p : A -> result bool) (xs : list A) : result (list A) :=
  match xs with
  | [] => Ok []
  | x :: rest =>
      let* keep := p x in
      let* tl := filterM p rest in
      Ok (if keep then x :: tl else tl)
  end.

(** *** Numbers *)

Definition add (a : number) (b : Z) : number :=
  match a with NaN => NaN | Num x => Num (x + b) end.

(** [a < b] and [a > b]: false as soon as a side is [NaN]. *)
Definition lt (a : number) (b : Z) : bool :=
  match a with NaN => false | Num x => bool_decide (x < b) end.
Definition gt (a : number) (b : Z) : bool :=
  match a with NaN => false | Num x => bool_decide (x > b) end.

(** [a || d] on numbers: [NaN] and [0] are falsy. *)
Definition or_else (a : number) (d : Z) : Z :=
  match a with
  | NaN => d
  | Num x => if bool_decide (x = 0) then d else x
  end.

(** [Math.ceil(a / b)] for an integer [a] and [b >= 1]. *)
Definition ceil_div (a b : Z) : Z := (a + b - 1) / b.

(** [n.toString()] *)
Definition toString (n : number) : string :=
  match n with
  | NaN => "NaN"
  | Num z => NilZero.string_of_int (Z.to_int z)
  end.

(** *** [parseInt] with no radix argument *)

Definition code (c : ascii) : Z := Z.of_N (N_of_ascii c).

(** [StrWhiteSpaceChar] among the 8-bit code units: TAB, LF, VT, FF, CR,
    SP and NBSP. *)
Definition is_white_space (c : ascii) : bool :=
  bool_decide (code c ∈ [9; 10; 11; 12; 13; 32; 160]).

Fixpoint trim_start (s : string) : string :=
  match s with
  | String c rest => if is_white_space c then trim_start rest else s
  | EmptyString => EmptyString
  end.

(** The value of [c] as a digit of [radix], if it is one. *)
Definition digit (radix : Z) (c : ascii) : option Z :=
  let n := code c in
  let d := if bool_decide (48 <= n <= 57) then Some (n - 48)
           else if bool_decide (97 <= n <= 122) then Some (n - 87)
           else if bool_decide (65 <= n <= 90) then Some (n - 55)
           else None in
  match d with
  | Some v => if bool_decide (v < radix) then Some v else None
  | None => None
  end.

(** The longest prefix of digits, read left to right; [acc] is [NaN] until
    a digit has been read. *)
Fixpoint digits (radix : Z) (s : string) (acc : number) : number :=
  match s with
  | String c rest =>
      match digit radix c with
      | Some d => digits radix rest (Num (radix * or_else acc 0 + d))
      | None => acc
      end
  | EmptyString => acc
  end.

Definition strip_sign (s : string) : Z * string :=
  match s with
  | String "-" rest => (-1, rest)
  | String "+" rest => (1, rest)
  | _ => (1, s)
  end.

Definition strip_prefix (s : string) : Z * string :=
  match s with
  | String "0" (String "x" rest) => (16, rest)
  | String "0" (String "X" rest) => (16, rest)
  | _ => (10, s)
  end.

Definition parseInt (s : string) : number :=
  let '(sign, s1) := strip_sign (trim_start s) in
  let '(radix, s2) := strip_prefix s1 in
  match digits radix s2 NaN with
  | NaN => NaN
  | Num z => Num (sign * z)
  end.

(** *** Strings *)

(** [s.toLowerCase()] on 8-bit code units: A-Z and the capitals of
    Latin-1. *)
Definition lower (c : ascii) : ascii :=
  let n := code c in
  if bool_decide (65 <= n <= 90 \/ 192 <= n <= 214 \/ 216 <= n <= 222)
  then ascii_of_N (Z.to_N (n + 32)) else c.

Fixpoint toLowerCase (s : string) : string :=
  match s with
  | String c rest => String (lower c) (toLowerCase rest)
  | EmptyString => EmptyString
  end.

(** [s.includes(sub)] *)
Fixpoint str_includes (s sub : string) : bool :=
  String.prefix sub s ||
  match s with
  | String _ rest => str_includes rest sub
  | EmptyString => false
  end.

(** [v.toLowerCase()] on a field of a record: only a string has the
    method. *)
Definition toLowerCase_of (v : value) : result string :=
  match v with
  | VStr s => Ok (toLowerCase s)
  | _ => Throw TypeError
  end.

(** *** [Array.prototype.slice] *)

Definition ToIntegerOrInfinity (n : number) : Z :=
  match n with NaN => 0 | Num z => z end.

(** A relative index: negative counts from the end; clamped to [0, len]. *)
Definition relative (len i : Z) : Z :=
  if bool_decide (i < 0) then Z.max (len + i) 0 else Z.min i len.

Definition slice {A} (xs : list A) (start end_ : number) : list A :=
  let len := Z.of_nat (length xs) in
  let k := relative len (ToIntegerOrInfinity start) in
  let final := relative len (ToIntegerOrInfinity end_) in
  take (Z.to_nat (final - k)) (drop (Z.to_nat k) xs).

(** ** The record store: [class Database] *)

Module Database.

Record t : Type := {
  data : option (gmap string (list (gmap string value)));   (* null until loaded *)
  initialized : bool
}.

(** [constructor()] *)
Definition new : t := {| data := None; initialized := false |}.

(** [initialize()], given what [loadData()] produced: both fields are set
    only once the load has returned, and a failed load leaves them as they
    were. *)
Definition initialize (loadData : result (gmap string (list (gmap string value))))
    (db : t) : result t :=
  let* loaded := loadData in
  Ok {| data := Some loaded; initialized := true |}.

(** What [this.data[collection]] can be: an array of records, or a member
    the store object inherits. *)
Inductive rows : Type :=
  | Rows (rs : list (gmap string value))
  | NativeRows (k : string).

(** The first use of a [findAll] result as an array ([filter], [slice]). *)
Definition as_array (r : rows) : result (list (gmap string value)) :=
  match r with
  | Rows rs => Ok rs
  | NativeRows _ => Throw TypeError
  end.

(** [find(collection, predicate)] *)
Definition find (db : t) (collection : string)
    (predicate : gmap string value -> result bool)
    : result (list (gmap string value)) :=
  if negb (initialized db) then Throw NotInitialized
  else match data db with
       | None => Throw TypeError
       | Some d =>
           match lookup_member d collection with
           | Missing => Ok []
           | Own rs => filterM predicate rs
           | Inherited _ => Throw TypeError
           end
       end.

(** [findOne(collection, predicate)]; [None] is [null]. *)
Definition findOne (db : t) (collection : string)
    (predicate : gmap string value -> result bool)
    : result (option (gmap string value)) :=
  let* results := find db collection predicate in
  Ok (if bool_decide (Z.of_nat (length results) > 0) then head results else None).

(** [findById(collection, id, idField = "_id")] *)
Definition findById (db : t) (collection : string) (id : value)
    (idField : option string) : result (option (gmap string value)) :=
  let idField := default "_id" idField in
  findOne db collection (fun record => Ok (strict_eq (get idField record) id)).

(** [findByIds(collection, ids, idField = "_id")] *)
Definition findByIds (db : t) (collection : string) (ids : value)
    (idField : option string) : result (list (gmap string value)) :=
  let idField := default "_id" idField in
  match ids with
  | VArr ids => find db collection (fun record => Ok (includes ids (get idField record)))
  | _ => Ok []
  end.

(** [findAll(collection)] *)
Definition findAll (db : t) (collection : string) : result rows :=
  if negb (initialized db) then Throw NotInitialized
  else match data db with
       | None => Throw TypeError
       | Some d =>
           match lookup_member d collection with
           | Own rs => Ok (Rows rs)
           | Inherited k => Ok (NativeRows k)
           | Missing => Ok (Rows [])
           end
       end.

(** [findParentNodesByCompositeIds(compositeIds)] *)
Definition findParentNodesByCompositeIds (db : t) (compositeIds : value)
    : result (list (gmap string value)) :=
  let compositeIds :=
    match compositeIds with
    | VArr ids => ids
    | other => [other]
    end in
  find db "nodes" (fun node =>
    match get "children" node with
    | VUndefined | VNull => Ok false        (* [?.] stops at a missing field *)
    | VArr children =>
        Ok (some (fun childId => includes compositeIds childId) children)
    | _ => Throw TypeError                  (* no [some] to call *)
    end).

End Database.

(** ** Roles and permissions: [class AuthService] *)

(** Modelled from the spec: [shared/constants], which declares
    [USER_ROLES], is not among the sources.  The three names are those of the
    role table of the specification, of the [User] typedef and of
    [utils/generateToken.js]. *)
Module USER_ROLES.
Definition ADMIN : string := "admin".
Definition USER : string := "user".
Definition GUEST : string := "guest".
End USER_ROLES.

Module AuthService.

(** The decoded token payload. *)
Record User : Type := {
  userId : string;
  email : string;
  role : string
}.

(** What a lookup in [roleHierarchy], followed by [|| 0], can be. *)
Inductive level : Type :=
  | Level (n : Z)
  | Builtin (k : string).

(** [ToPrimitive] of an inherited member: [Object.prototype] itself behind
    [__proto__], [Object] behind [constructor], else the method named
    [k]. *)
Definition native_text (k : string) : string :=
  if bool_decide (k = "__proto__") then "[object Object]"
  else if bool_decide (k = "constructor") then "function Object() { [native code] }"
  else "function " +:+ k +:+ "() { [native code] }".

(** [a >= b]: numbers by value; two objects by their primitive texts; a
    number against such a text is a comparison with [NaN]. *)
Definition ge (a b : level) : bool :=
  match a, b with
  | Level x, Level y => bool_decide (x >= y)
  | Builtin x, Builtin y => negb (String.ltb (native_text x) (native_text y))
  | _, _ => false
  end.

Definition roleHierarchy : gmap string Z :=
  <[USER_ROLES.GUEST := 0]> (<[USER_ROLES.USER := 1]> (<[USER_ROLES.ADMIN := 2]> ∅)).

(** [roleHierarchy[r] || 0] *)
Definition level_of (r : string) : level :=
  match lookup_member roleHierarchy r with
  | Own n => Level (or_else (Num n) 0)
  | Inherited k => Builtin k
  | Missing => Level 0
  end.

(** [hasRole(user, requiredRole)]; [None] is a null user. *)
Definition hasRole (user : option User) (requiredRole : string) : bool :=
  match user with
  | None => false
  | Some user =>
      if bool_decide (role user = EmptyString) then false
      else
        let userLevel := level_of (role user) in
        let requiredLevel := level_of requiredRole in
        ge userLevel requiredLevel
  end.

Definition userPermissions : gmap string (list string) :=
  <["nodes" := ["read"; "write"]]> (
  <["triggers" := ["read"; "write"]]> (
  <["actions" := ["read"; "write"]]> (
  <["responses" := ["read"; "write"]]> (
  <["resourceTemplates" := ["read"]]> ∅)))).

(** [hasPermission(user, resource, action = 'read')] *)
Definition hasPermission (user : option User) (resource : string)
    (action : option string) : result bool :=
  let action := default "read" action in
  match user with
  | None => Ok false
  | Some user =>
      if bool_decide (role user = USER_ROLES.ADMIN) then Ok true
      else if bool_decide (role user = USER_ROLES.USER) then
        match lookup_member userPermissions resource with
        | Own permitted => Ok (bool_decide (action ∈ permitted))
        | Inherited _ => Throw TypeError      (* no [includes] to call *)
        | Missing => Ok false
        end
      else if bool_decide (role user = USER_ROLES.GUEST) then
        Ok (bool_decide (action = "read"))
      else Ok false
  end.

End AuthService.

(** ** REST: [class BaseController] and [class NodeController] *)

(** [req.query] of [GET /nodes]; [None] is a parameter left out. *)
Module Query.
Record t : Type := {
  page : option string;
  limit : option string;
  name : option string;
  root : option string;
  global : option string;
  colour : option string
}.
End Query.

Module BaseController.

Record PaginationParams : Type := {
  page : Z;
  limit : Z;
  offset : Z
}.

Record Pagination : Type := {
  p_page : Z;
  p_limit : Z;
  total : Z;
  totalPages : Z;
  hasNextPage : bool;
  hasPreviousPage : bool
}.

Record PaginatedResponse : Type := {
  data : list (gmap string value);
  pagination : Pagination
}.

(** [getPaginationParams(query)]; [parseInt] reads a parameter left out as
    the text "undefined". *)
Definition getPaginationParams (query : Query.t) : PaginationParams :=
  let page := Z.max 1 (or_else (parseInt (default "undefined" (Query.page query))) 1) in
  let limit :=
    Z.min 100 (Z.max 1 (or_else (parseInt (default "undefined" (Query.limit query))) 10)) in
  let offset := (page - 1) * limit in
  {| page := page; limit := limit; offset := offset |}.

(** [createPaginatedResponse(data, page, limit, total)], for [limit >= 1]
    as [getPaginationParams] delivers it. *)
Definition createPaginatedResponse (data : list (gmap string value))
    (page limit total : Z) : PaginatedResponse :=
  let totalPages := ceil_div total limit in
  {| data := data;
     pagination := {| p_page := page; p_limit := limit; total := total;
                      totalPages := totalPages;
                      hasNextPage := bool_decide (page < totalPages);
                      hasPreviousPage := bool_decide (page > 1) |} |}.

End BaseController.

Module NodeController.
Import BaseController.

(** The four filters of [getNodes], in their order. *)
Definition applyFilters (query : Query.t) (nodes : list (gmap string value))
    : result (list (gmap string value)) :=
  let* nodes :=
    match Query.name query with
    | Some name =>
        if bool_decide (name = EmptyString) then Ok nodes
        else filterM (fun node =>
               let* lowered := toLowerCase_of (get "name" node) in
               Ok (str_includes lowered (toLowerCase name))) nodes
    | None => Ok nodes
    end in
  let nodes :=
    match Query.root query with
    | Some root =>
        List.filter (fun node =>
          strict_eq (get "root" node) (VBool (bool_decide (root = "true")))) nodes
    | None => nodes
    end in
  let nodes :=
    match Query.global query with
    | Some global =>
        List.filter (fun node =>
          strict_eq (get "global" node) (VBool (bool_decide (global = "true")))) nodes
    | None => nodes
    end in
  let nodes :=
    match Query.colour query with
    | Some colour =>
        if bool_decide (colour = EmptyString) then nodes
        else List.filter (fun node => strict_eq (get "colour" node) (VStr colour)) nodes
    | None => nodes
    end in
  Ok nodes.

(** The window and the envelope: lines 40-43 of the controller. *)
Definition paginate (query : Query.t) (nodes : list (gmap string value))
    : PaginatedResponse :=
  let params := getPaginationParams query in
  let total := Z.of_nat (length nodes) in
  let paginatedNodes :=
    slice nodes (Num (offset params)) (Num (offset params + limit params)) in
  createPaginatedResponse paginatedNodes (page params) (limit params) total.

(** [getNodes(req, res)]: the body handed to [sendSuccess], or the
    exception handed to [next]. *)
Definition getNodes (db : Database.t) (query : Query.t) : result PaginatedResponse :=
  let* found := Database.findAll db "nodes" in
  let* nodes := Database.as_array found in
  let* nodes := applyFilters query nodes in
  Ok (paginate query nodes).

End NodeController.

(** ** GraphQL: the list queries of the resolvers *)

Module Connection.

Record Edge : Type := {
  node : gmap string value;
  cursor : string
}.

Record PageInfo : Type := {
  hasNextPage : bool;
  hasPreviousPage : bool;
  startCursor : option string;     (* [None] is [null] *)
  endCursor : option string
}.

Record t : Type := {
  edges : list Edge;
  pageInfo : PageInfo;
  totalCount : Z
}.

(** [{ first = 10, after, filter = {} } = args] *)
Record Args (F : Type) : Type := {
  first : arg Z;
  after : arg string;
  filter : arg F
}.
Arguments first {F} _.
Arguments after {F} _.
Arguments filter {F} _.

(** [first] as the arithmetic below sees it: 10 when left out, and a
    literal [null] counts as 0 in a sum. *)
Definition first_of (first : arg Z) : Z :=
  match first with
  | Omitted => 10
  | ANull => 0
  | Given n => n
  end.

(** [after ? parseInt(after) : 0] *)
Definition startIndex (after : arg string) : number :=
  match after with
  | Given s => if bool_decide (s = EmptyString) then Num 0 else parseInt s
  | _ => Num 0
  end.

(** The pagination block that closes [getNodes] (nodeResolvers.js, lines
    60-77), [getTriggers], [getActions], [getResponses] and
    [getResourceTemplates] alike. *)
Definition connection (first : Z) (after : arg string)
    (nodes : list (gmap string value)) : t :=
  let startIndex := startIndex after in
  let endIndex := add startIndex first in
  let paginatedNodes := slice nodes startIndex endIndex in
  {| edges :=
       imap (fun index node =>
               {| node := node;
                  cursor := toString (add startIndex (Z.of_nat index)) |})
            paginatedNodes;
     pageInfo :=
       {| hasNextPage := lt endIndex (Z.of_nat (length nodes));
          hasPreviousPage := gt startIndex 0;
          startCursor :=
            if bool_decide (Z.of_nat (length paginatedNodes) > 0)
            then Some (toString startIndex) else None;
          endCursor :=
            if bool_decide (Z.of_nat (length paginatedNodes) > 0)
            then Some (toString (add endIndex (-1))) else None |};
     totalCount := Z.of_nat (length nodes) |}.

(** [filter.name] and the like: a read of a field of [null] throws. *)
Definition with_filter {F A} (filter : arg F) (absent : F)
    (k : F -> result A) : result A :=
  match filter with
  | Omitted => k absent
  | ANull => Throw TypeError
  | Given f => k f
  end.

(** The name filter shared by the five list queries. *)
Definition by_name (name : arg string) (rows : list (gmap string value))
    : result (list (gmap string value)) :=
  match name with
  | Given name =>
      if bool_decide (name = EmptyString) then Ok rows
      else filterM (fun row =>
             let* lowered := toLowerCase_of (get "name" row) in
             Ok (str_includes lowered (toLowerCase name))) rows
  | _ => Ok rows
  end.

(** [if (f) rows = rows.filter(row => row[field] === f)] *)
Definition by_text (field : string) (f : arg string)
    (rows : list (gmap string value)) : list (gmap string value) :=
  match f with
  | Given f =>
      if bool_decide (f = EmptyString) then rows
      else List.filter (fun row => strict_eq (get field row) (VStr f)) rows
  | _ => rows
  end.

(** [if (f !== undefined) rows = rows.filter(row => row[field] === f)] *)
Definition by_flag (field : string) (f : arg bool)
    (rows : list (gmap string value)) : list (gmap string value) :=
  match f with
  | Omitted => rows
  | ANull => List.filter (fun row => strict_eq (get field row) VNull) rows
  | Given b => List.filter (fun row => strict_eq (get field row) (VBool b)) rows
  end.

End Connection.

Module NodeResolvers.
Import Connection.

(** [input NodeFilter] *)
Record NodeFilter : Type := {
  name : arg string;
  root : arg bool;
  global : arg bool;
  colour : arg string
}.

Definition no_filter : NodeFilter :=
  {| name := Omitted; root := Omitted; global := Omitted; colour := Omitted |}.

Definition applyFilters (filter : arg NodeFilter) (nodes : list (gmap string value))
    : result (list (gmap string value)) :=
  with_filter filter no_filter (fun filter =>
    let* nodes := by_name (name filter) nodes in
    let nodes := by_flag "root" (root filter) nodes in
    let nodes := by_flag "global" (global filter) nodes in
    let nodes := by_text "colour" (colour filter) nodes in
    Ok nodes).

(** [getNodes(args, context)]; [context] only feeds the log. *)
Definition getNodes (db : Database.t) (args : Args NodeFilter) : result Connection.t :=
  let* found := Database.findAll db "nodes" in
  let* nodes := Database.as_array found in
  let* nodes := applyFilters (filter args) nodes in
  Ok (connection (first_of (first args)) (after args) nodes).

End NodeResolvers.

Module TriggerResolvers.
Import Connection.

(** [input TriggerFilter] *)
Record TriggerFilter : Type := {
  name : arg string;
  resourceTemplateId : arg string
}.

Definition no_filter : TriggerFilter :=
  {| name := Omitted; resourceTemplateId := Omitted |}.

(** [getTriggers(args, context)] *)
Definition getTriggers (db : Database.t) (args : Args TriggerFilter)
    : result Connection.t :=
  let* found := Database.findAll db "triggers" in
  let* triggers := Database.as_array found in
  let* triggers :=
    with_filter (filter args) no_filter (fun filter =>
      let* triggers := by_name (name filter) triggers in
      Ok (by_text "resourceTemplateId" (resourceTemplateId filter) triggers)) in
  Ok (connection (first_of (first args)) (after args) triggers).

End TriggerResolvers.

Module ResponseResolvers.
Import Connection.

(** [input ResponseFilter] *)
Record ResponseFilter : Type := {
  name : arg string
}.

Definition no_filter : ResponseFilter := {| name := Omitted |}.

(** [getResponses(args, context)] *)
Definition getResponses (db : Database.t) (args : Args ResponseFilter)
    : result Connection.t :=
  let* found := Database.findAll db "responses" in
  let* responses := Database.as_array found in
  let* responses :=
    with_filter (filter args) no_filter (fun filter =>
      by_name (name filter) responses) in
  Ok (connection (first_of (first args)) (after args) responses).

End ResponseResolvers.

(** ** Sample data *)

Module Fixture.

Definition node (id name : string) (root global : bool) (children : list string)
    : gmap string value :=
  <["_id" := VStr id]> (<["name" := VStr name]> (<["root" := VBool root]> (
  <["global" := VBool global]> (<["children" := VArr (VStr <$> children)]> ∅)))).

Definition welcome : gmap string value := node "n1" "Welcome" true false ["n2"; "n3"].
Definition goodbye : gmap string value := node "n2" "Goodbye" false true ["n3"].
(** A node without a [children] field. *)
Definition leaf : gmap string value :=
  <["_id" := VStr "n3"]> (<["name" := VStr "Leaf"]> (<["root" := VBool false]> (
  <["global" := VBool false]> ∅))).

Definition response (id : string) : gmap string value :=
  <["_id" := VStr id]> (<["name" := VStr "reply"]> ∅).

(** What [loadData()] returns: the five collections. *)
Definition store : gmap string (list (gmap string value)) :=
  <["actions" := []]> (
  <["nodes" := [welcome; goodbye; leaf]]> (
  <["resourceTemplates" := []]> (
  <["responses" := [response "x"; response "z"]]> (
  <["triggers" := []]> ∅)))).

Definition db : Database.t :=
  {| Database.data := Some store; Database.initialized := true |}.

Definition user_of (r : string) : AuthService.User :=
  {| AuthService.userId := "sample-user-123";
     AuthService.email := "user@example.com";
     AuthService.role := r |}.

(** [GET /nodes] with nothing but [page] and [limit]. *)
Definition paging (page limit : option string) : Query.t :=
  {| Query.page := page; Query.limit := limit; Query.name := None;
     Query.root := None; Query.global := None; Query.colour := None |}.

End Fixture.

(** ** Vocabulary of the statements *)

(** The digits of [d] read left to right on top of [a]. *)
Fixpoint uint_acc (d : uint) (a : Z) : Z :=
  match d with
  | Nil => a
  | D0 d => uint_acc d (10 * a)
  | D1 d => uint_acc d (10 * a + 1)
  | D2 d => uint_acc d (10 * a + 2)
  | D3 d => uint_acc d (10 * a + 3)
  | D4 d => uint_acc d (10 * a + 4)
  | D5 d => uint_acc d (10 * a + 5)
  | D6 d => uint_acc d (10 * a + 6)
  | D7 d => uint_acc d (10 * a + 7)
  | D8 d => uint_acc d (10 * a + 8)
  | D9 d => uint_acc d (10 * a + 9)
  end.

(** A text [parseInt] cannot read, and one it reads as a negative number. *)
Definition non_numeric (s : string) : Prop := parseInt s = NaN.
Definition negative (s : string) : Prop := exists z, parseInt s = Num z /\ z < 0.

(** The request with another [page], the arguments with another [after]. *)
Definition with_page (page : option string) (query : Query.t) : Query.t :=
  {| Query.page := page; Query.limit := Query.limit query;
     Query.name := Query.name query; Query.root := Query.root query;
     Query.global := Query.global query; Query.colour := Query.colour query |}.

Definition with_after {F} (after : arg string) (args : Connection.Args F)
    : Connection.Args F :=
  {| Connection.first := Connection.first args; Connection.after := after;
     Connection.filter := Connection.filter args |}.

(** [GET /nodes?root=q] and [GET /nodes?global=q], nothing else set. *)
Definition only_root (q : string) : Query.t :=
  {| Query.page := None; Query.limit := None; Query.name := None;
     Query.root := Some q; Query.global := None; Query.colour := None |}.
Definition only_global (q : string) : Query.t :=
  {| Query.page := None; Query.limit := None; Query.name := None;
     Query.root := None; Query.global := Some q; Query.colour := None |}.

(** Whether a call returned. *)
Definition is_ok {A} (r : result A) : bool :=
  match r with Ok _ => true | Throw _ => false end.

(** The records of [collection] in a loaded store; none when the store has
    no such collection. *)
Definition records_of (d : gmap string (list (gmap string value)))
    (collection : string) : list (gmap string value) :=
  default [] (d !! collection).

(** The data model of a node: [children] is absent, [null] or an array. *)
Definition children_typed (node : gmap string value) : Prop :=
  match get "children" node with
  | VUndefined | VNull | VArr _ => True
  | _ => False
  end.

(** The specification's words: the [children] array of [node] contains at
    least one of [ids]. *)
Definition references (ids : list value) (node : gmap string value) : bool :=
  match node !! "children" with
  | Some (VArr children) => existsb (fun child => includes ids child) children
  | _ => false
  end.

(** The three roles of the specification, their names and their levels. *)
Inductive Role : Type := GUEST | USER | ADMIN.

Definition role_name (r : Role) : string :=
  match r with
  | GUEST => USER_ROLES.GUEST
  | USER => USER_ROLES.USER
  | ADMIN => USER_ROLES.ADMIN
  end.

Definition role_level (r : Role) : Z :=
  match r with GUEST => 0 | USER => 1 | ADMIN => 2 end.

(** The permission table as the code applies it: an admin may do anything
    to any resource name, a guest may read any resource name, a user has
    the rows of the table and nothing beyond them. *)
Definition permitted (role resource action : string) : bool :=
  if bool_decide (role = "admin") then true
  else if bool_decide (role = "guest") then bool_decide (action = "read")
  else if bool_decide (role = "user") then
    (bool_decide (resource ∈ ["nodes"; "triggers"; "actions"; "responses"])
       && bool_decide (action ∈ ["read"; "write"]))
    || (bool_decide (resource = "resourceTemplates") && bool_decide (action = "read"))
  else false.

(** * Properties *)

(** ** The run-time helpers *)

Section Helpers.
Context {A : Type}.

(** A callback that never throws makes [filterM] the plain filter. *)
Lemma filterM_pure (p : A -> bool) (xs : list A) :
  filterM (fun x => Ok (p x)) xs = Ok (List.filter p xs).
Proof.
  induction xs as [|x xs IH]; simpl; [done|].
  rewrite IH. simpl. by destruct (p x).
Qed.

(** Whatever [filterM] returns is kept in the order of the input. *)
Lemma filterM_sublist (p : A -> result bool) (xs ys : list A) :
  filterM p xs = Ok ys -> sublist ys xs.
Proof.
  revert ys. induction xs as [|x xs IH]; simpl; intros ys H.
  - by inversion H.
  - destruct (p x) as [keep|]; simpl in H; [|done].
    destruct (filterM p xs) as [tl|]; simpl in H; [|done].
    inversion H; subst. destruct keep.
    + by apply sublist_skip, IH.
    + by apply sublist_cons, IH.
Qed.

Lemma filter_sublist (p : A -> bool) (xs : list A) :
  sublist (List.filter p xs) xs.
Proof.
  induction xs as [|x xs IH]; simpl; [done|].
  destruct (p x); by constructor.
Qed.

Lemma elem_of_filter_bool (p : A -> bool) (xs : list A) (x : A) :
  x ∈ List.filter p xs <-> x ∈ xs /\ p x = true.
Proof. rewrite !list_elem_of_In. apply filter_In. Qed.

Lemma filter_bool_ext (p q : A -> bool) (xs : list A) :
  (forall x, x ∈ xs -> p x = q x) -> List.filter p xs = List.filter q xs.
Proof.
  intros H. apply List.filter_ext_in. intros x Hx. apply H.
  by apply list_elem_of_In.
Qed.

Lemma filter_bool_nil (p : A -> bool) (xs : list A) :
  (forall x, x ∈ xs -> p x = false) -> List.filter p xs = [].
Proof.
  induction xs as [|x xs IH]; simpl; intros H; [done|].
  rewrite (H x) by left. apply IH. intros y Hy. apply H. by right.
Qed.

Lemma existsb_elem_of (p : A -> bool) (xs : list A) :
  existsb p xs = true <-> exists x, x ∈ xs /\ p x = true.
Proof.
  rewrite existsb_exists. split; intros (x & Hx & Hp); exists x;
    (split; [by apply list_elem_of_In|done]).
Qed.

(** [slice] with a window inside the array. *)
Lemma slice_window (xs : list A) (s n : Z) :
  0 <= s -> 0 <= n ->
  slice xs (Num s) (Num (s + n)) = take (Z.to_nat n) (drop (Z.to_nat s) xs).
Proof.
  intros Hs Hn. unfold slice, relative, ToIntegerOrInfinity.
  rewrite !bool_decide_eq_false_2 by lia.
  set (len := Z.of_nat (length xs)).
  destruct (decide (len <= s)) as [Hout|Hin].
  - rewrite !Z.min_r by lia.
    rewrite !drop_ge by (subst len; lia). by rewrite !take_nil.
  - rewrite (Z.min_l s) by lia.
    destruct (decide (s + n <= len)).
    + rewrite Z.min_l by lia. do 2 f_equal. lia.
    + rewrite Z.min_r by lia.
      rewrite !take_ge; [done| |]; rewrite length_drop; subst len; lia.
Qed.

(** A [NaN] start with a [NaN] end selects nothing. *)
Lemma slice_NaN (xs : list A) : slice xs NaN NaN = [].
Proof.
  unfold slice, relative, ToIntegerOrInfinity. simpl.
  rewrite Z.min_l by lia. done.
Qed.

End Helpers.

(** ** Decimal text read back by [parseInt] *)

Lemma uint_acc_pos (d : uint) (a : positive) :
  Z.pos (Pos.of_uint_acc d a) = uint_acc d (Z.pos a).
Proof.
  revert a. induction d; intros a; simpl; [done|..];
    rewrite IHd; f_equal; lia.
Qed.

Lemma uint_acc_of_uint (d : uint) : uint_acc d 0 = Z.of_uint d.
Proof.
  unfold Z.of_uint.
  induction d; cbn -[Z.mul Z.add]; [done|done|..]; by rewrite uint_acc_pos.
Qed.

Lemma digits_uint (d : uint) (a : Z) :
  digits 10 (NilEmpty.string_of_uint d) (Num a) = Num (uint_acc d a).
Proof.
  revert a. induction d; intros a; [done|..];
    (simpl NilEmpty.string_of_uint; cbn [digits];
     match goal with
     | |- context [digit 10 ?c] =>
         change (digit 10 c) with (Some (code c - 48))
     end;
     cbn [or_else]; case_bool_decide; subst; rewrite IHd; cbn [uint_acc];
     do 2 f_equal;
     match goal with
     | |- context [code ?c] =>
         let v := eval vm_compute in (code c) in change (code c) with v
     end; lia).
Qed.

Lemma digits_uint_start (d : uint) :
  d <> Nil ->
  digits 10 (NilEmpty.string_of_uint d) NaN = Num (Z.of_uint d).
Proof.
  intros Hd. rewrite <- uint_acc_of_uint.
  destruct d; [done|..];
    (simpl NilEmpty.string_of_uint; cbn [digits];
     match goal with
     | |- context [digit 10 ?c] =>
         change (digit 10 c) with (Some (code c - 48))
     end;
     cbn [or_else]; rewrite digits_uint; done).
Qed.

(** Decimal text has no blank, no sign and no [0x] in front. *)
Lemma uint_text_plain (d : uint) :
  d <> Nil ->
  let s := NilEmpty.string_of_uint d in
  trim_start s = s /\ strip_sign s = (1, s) /\ strip_prefix s = (10, s).
Proof.
  intros Hd. destruct d as [|d|d|d|d|d|d|d|d|d|d]; [done|..];
    (split; [done|split; [done|]]); try done.
  destruct d; done.
Qed.

Lemma parseInt_uint (d : uint) :
  d <> Nil -> parseInt (NilEmpty.string_of_uint d) = Num (Z.of_uint d).
Proof.
  intros Hd. destruct (uint_text_plain d Hd) as (Ht & Hs & Hp).
  unfold parseInt. rewrite Ht, Hs, Hp, (digits_uint_start d Hd).
  f_equal. lia.
Qed.

Lemma parseInt_neg_uint (d : uint) :
  d <> Nil ->
  parseInt (String "-" (NilEmpty.string_of_uint d)) = Num (- Z.of_uint d).
Proof.
  intros Hd. destruct (uint_text_plain d Hd) as (Ht & Hs & Hp).
  unfold parseInt.
  change (trim_start (String "-" ?s)) with (String "-" s).
  change (strip_sign (String "-" ?s)) with (-1, s).
  cbv beta iota. rewrite Hp, (digits_uint_start d Hd). f_equal; lia.
Qed.

Lemma NilZero_text (d : uint) :
  d <> Nil -> NilZero.string_of_uint d = NilEmpty.string_of_uint d.
Proof. by destruct d. Qed.

(** [parseInt] inverts [toString] on every integer. *)
Lemma parseInt_toString (z : Z) : parseInt (toString (Num z)) = Num z.
Proof.
  destruct z as [|p|p]; [done|..]; unfold toString, Z.to_int;
    simpl NilZero.string_of_int;
    rewrite NilZero_text by apply DecimalPos.Unsigned.to_uint_nonnil;
    [rewrite parseInt_uint | rewrite parseInt_neg_uint];
    try apply DecimalPos.Unsigned.to_uint_nonnil;
    unfold Z.of_uint; by rewrite DecimalPos.Unsigned.of_to.
Qed.

(** Decimal text is never the empty string. *)
Lemma toString_nonempty (n : number) : toString n <> EmptyString.
Proof.
  destruct n as [|z]; [done|]. unfold toString, Z.to_int.
  destruct z as [|p|p]; [done| |done].
  simpl. pose proof (DecimalPos.Unsigned.to_uint_nonnil p).
  by destruct (Pos.to_uint p).
Qed.

(** ** Cursor pagination *)

Section Cursor.
Import Connection.

Lemma imap_node (f : nat -> gmap string value -> string) (xs : list (gmap string value)) :
  map node (imap (fun i x => {| node := x; cursor := f i x |}) xs) = xs.
Proof.
  revert f. induction xs as [|x xs IH]; intros f; simpl; [done|].
  f_equal. apply (IH (fun i => f (S i))).
Qed.

(** The records of the edges are the slice itself. *)
Lemma connection_nodes (first : Z) (after : arg string) (nodes : list (gmap string value)) :
  map node (edges (connection first after nodes))
  = slice nodes (startIndex after) (add (startIndex after) first).
Proof. unfold connection. simpl. apply imap_node. Qed.

(** An [after] that is left out, [null] or empty starts at 0. *)
Lemma startIndex_default (after : arg string) :
  after = Omitted \/ after = ANull \/ after = Given EmptyString ->
  startIndex after = Num 0.
Proof. by intros [->|[->| ->]]. Qed.

(** A [NaN] start index empties the whole connection. *)
Lemma connection_NaN (first : Z) (after : arg string) (nodes : list (gmap string value)) :
  startIndex after = NaN ->
  connection first after nodes =
    {| edges := [];
       pageInfo := {| hasNextPage := false; hasPreviousPage := false;
                      startCursor := None; endCursor := None |};
       totalCount := Z.of_nat (length nodes) |}.
Proof.
  intros H. unfold connection. rewrite H. simpl. by rewrite slice_NaN.
Qed.

(** Each list query ends in [connection] over its filtered sequence. *)
Lemma getNodes_connection db args c :
  NodeResolvers.getNodes db args = Ok c ->
  exists nodes, c = connection (first_of (first args)) (after args) nodes.
Proof.
  unfold NodeResolvers.getNodes. intros H.
  destruct (Database.findAll db "nodes") as [found|]; simpl in H; [|done].
  destruct (Database.as_array found) as [nodes|]; simpl in H; [|done].
  destruct (NodeResolvers.applyFilters _ nodes) as [filtered|]; simpl in H; [|done].
  exists filtered. by inversion H.
Qed.

Lemma getTriggers_connection db args c :
  TriggerResolvers.getTriggers db args = Ok c ->
  exists triggers, c = connection (first_of (first args)) (after args) triggers.
Proof.
  unfold TriggerResolvers.getTriggers. intros H.
  destruct (Database.findAll db "triggers") as [found|]; simpl in H; [|done].
  destruct (Database.as_array found) as [triggers|]; simpl in H; [|done].
  destruct (with_filter _ _ _) as [filtered|]; simpl in H; [|done].
  exists filtered. by inversion H.
Qed.

Lemma getResponses_connection db args c :
  ResponseResolvers.getResponses db args = Ok c ->
  exists responses, c = connection (first_of (first args)) (after args) responses.
Proof.
  unfold ResponseResolvers.getResponses. intros H.
  destruct (Database.findAll db "responses") as [found|]; simpl in H; [|done].
  destruct (Database.as_array found) as [responses|]; simpl in H; [|done].
  destruct (with_filter _ _ _) as [filtered|]; simpl in H; [|done].
  exists filtered. by inversion H.
Qed.

(** C6.  For every filtered sequence and every request, with the start
    index the resolver computes from [after]: [hasNextPage] is true exactly
    when start index + [first] is below the length of the sequence, and
    [hasPreviousPage] exactly when the start index is above 0.  A [NaN]
    start index makes both comparisons, and both flags, false. *)
Theorem page_flags (first : Z) (after : arg string) (nodes : list (gmap string value)) :
  let info := pageInfo (connection first after nodes) in
  match startIndex after with
  | Num s =>
      (hasNextPage info = true <-> s + first < Z.of_nat (length nodes))
      /\ (hasPreviousPage info = true <-> s > 0)
  | NaN => hasNextPage info = false /\ hasPreviousPage info = false
  end.
Proof.
  unfold connection. simpl. destruct (startIndex after) as [|s]; simpl; [done|].
  by rewrite !bool_decide_eq_true.
Qed.

(** The same flags on what [getNodes] and [getTriggers] return. *)
Corollary resolver_page_flags db c :
  (forall args, NodeResolvers.getNodes db args = Ok c ->
     hasNextPage (pageInfo c)
       = lt (add (startIndex (after args)) (first_of (first args))) (totalCount c)
     /\ hasPreviousPage (pageInfo c) = gt (startIndex (after args)) 0)
  /\ (forall args, TriggerResolvers.getTriggers db args = Ok c ->
     hasNextPage (pageInfo c)
       = lt (add (startIndex (after args)) (first_of (first args))) (totalCount c)
     /\ hasPreviousPage (pageInfo c) = gt (startIndex (after args)) 0).
Proof.
  split; intros args H.
  - by destruct (getNodes_connection _ _ _ H) as [nodes ->].
  - by destruct (getTriggers_connection _ _ _ H) as [nodes ->].
Qed.

End Cursor.

(** ** Cursors of a page *)

Section Cursors.
Import Connection.

(** Both cursors are [null] exactly on an empty page. *)
Lemma cursors_null_on_empty_page first after nodes :
  let c := connection first after nodes in
  (edges c = [] -> startCursor (pageInfo c) = None /\ endCursor (pageInfo c) = None)
  /\ (edges c <> [] ->
      is_Some (startCursor (pageInfo c)) /\ is_Some (endCursor (pageInfo c))).
Proof.
  unfold connection. simpl.
  destruct (slice nodes _ _) as [|x page]; simpl; split; done.
Qed.

(** [startCursor] is the cursor of the first edge. *)
Lemma startCursor_first_edge first after nodes e :
  let c := connection first after nodes in
  head (edges c) = Some e -> startCursor (pageInfo c) = Some (cursor e).
Proof.
  unfold connection. simpl.
  destruct (slice nodes _ _) as [|x page]; simpl; [done|].
  intros [= <-]. simpl. f_equal.
  destruct (startIndex after) as [|s]; simpl; [done|]. by rewrite Z.add_0_r.
Qed.

(** [endCursor] is the cursor of the last edge on a page that holds
    [first] records. *)
Lemma endCursor_last_edge_full_page first after nodes e :
  let c := connection first after nodes in
  last (edges c) = Some e ->
  Z.of_nat (length (edges c)) = first ->
  endCursor (pageInfo c) = Some (cursor e).
Proof.
  unfold connection. simpl.
  generalize (slice nodes (startIndex after) (add (startIndex after) first)).
  intros page. rewrite last_lookup, list_lookup_imap, !length_imap.
  intros Hlast Hlen.
  destruct (page !! _) as [x|] eqn:Hx; simpl in Hlast; [|done].
  injection Hlast as <-. simpl.
  assert (0 < length page)%nat by (destruct page; [done|simpl; lia]).
  rewrite bool_decide_eq_true_2 by lia. f_equal.
  destruct (startIndex after) as [|s]; simpl; [done|].
  do 2 f_equal. lia.
Qed.

(** C2.  The default request over the three sample nodes: the page holds
    the items of index 0, 1 and 2, each edge carries its index as cursor,
    [startCursor] is "0", and [endCursor] is "9" where the index of the
    last returned item is 2. *)
Theorem endCursor_past_last_item :
  exists c,
    NodeResolvers.getNodes Fixture.db
      {| first := Omitted; after := Omitted; filter := Omitted |} = Ok c
    /\ map node (edges c) = [Fixture.welcome; Fixture.goodbye; Fixture.leaf]
    /\ map cursor (edges c) = ["0"; "1"; "2"]
    /\ startCursor (pageInfo c) = Some "0"
    /\ endCursor (pageInfo c) = Some "9".
Proof.
  exists (connection 10 Omitted [Fixture.welcome; Fixture.goodbye; Fixture.leaf]).
  split_and!; by vm_compute.
Qed.

End Cursors.

(** ** Offset pagination against cursor pagination *)

Section OffsetAndCursor.
Import BaseController Connection.

Lemma getPaginationParams_decimal (query : Query.t) (p L : Z) :
  1 <= p -> 1 <= L <= 100 ->
  Query.page query = Some (toString (Num p)) ->
  Query.limit query = Some (toString (Num L)) ->
  getPaginationParams query = {| page := p; limit := L; offset := (p - 1) * L |}.
Proof.
  intros Hp HL Hpage Hlimit. unfold getPaginationParams.
  rewrite Hpage, Hlimit. cbn [default from_option id]. rewrite !parseInt_toString.
  unfold or_else. rewrite !bool_decide_eq_false_2 by lia.
  rewrite (Z.max_r 1 p), (Z.max_r 1 L), (Z.min_r 100 L) by lia. done.
Qed.

(** C1, as the code has it.  For every filtered sequence, every page
    [p >= 1] and every limit [L] from 1 to 100, the REST window of page [p]
    with limit [L] holds the same records in the same order as the edges of
    the GraphQL connection for [first = L] and [after] the decimal text of
    [(p-1)*L]. *)
Theorem offset_cursor_agree (query : Query.t) (nodes : list (gmap string value))
    (p L : Z) :
  1 <= p -> 1 <= L <= 100 ->
  Query.page query = Some (toString (Num p)) ->
  Query.limit query = Some (toString (Num L)) ->
  data (NodeController.paginate query nodes)
  = map node (edges (connection (first_of (Given L))
                                (Given (toString (Num ((p - 1) * L)))) nodes)).
Proof.
  intros Hp HL Hpage Hlimit.
  rewrite connection_nodes. unfold NodeController.paginate.
  rewrite (getPaginationParams_decimal query p L) by done.
  unfold createPaginatedResponse. cbn [data offset limit page].
  unfold startIndex.
  rewrite bool_decide_eq_false_2 by apply toString_nonempty.
  by rewrite parseInt_toString.
Qed.

Lemma offset_cursor_agree_witness :
  data (NodeController.paginate (Fixture.paging (Some "2") (Some "1"))
          [Fixture.welcome; Fixture.goodbye; Fixture.leaf])
  = map node (edges (connection 1 (Given "1")
          [Fixture.welcome; Fixture.goodbye; Fixture.leaf])).
Proof.
  apply (offset_cursor_agree (Fixture.paging (Some "2") (Some "1"))
           [Fixture.welcome; Fixture.goodbye; Fixture.leaf] 2 1);
    [lia | lia | reflexivity | reflexivity].
Defined.

(** With [limit=101] the REST window stops at 100 records, the connection
    for [first = 101] holds 101: the two pages differ. *)
Lemma offset_cursor_differ_above_100 :
  let nodes := replicate 101 Fixture.leaf in
  let query := Fixture.paging (Some (toString (Num 1))) (Some (toString (Num 101))) in
  data (NodeController.paginate query nodes)
  <> map node (edges (connection (first_of (Given 101))
                                 (Given (toString (Num ((1 - 1) * 101)))) nodes)).
Proof.
  intros nodes query H. apply (f_equal length) in H.
  vm_compute in H. discriminate H.
Qed.

(** The scenario of the specification: [page=2, limit=1] over three
    records. *)
Example page_two_of_three :
  NodeController.paginate (Fixture.paging (Some "2") (Some "1"))
    [Fixture.welcome; Fixture.goodbye; Fixture.leaf]
  = {| data := [Fixture.goodbye];
       pagination := {| p_page := 2; p_limit := 1; total := 3; totalPages := 3;
                        BaseController.hasNextPage := true;
                        BaseController.hasPreviousPage := true |} |}.
Proof. by vm_compute. Qed.

End OffsetAndCursor.

(** ** The boundary: [page] and [after] that are no page and no index *)

Section Boundary.
Import BaseController Connection.

Lemma getPaginationParams_bad_page (query : Query.t) (s : string) :
  non_numeric s \/ negative s ->
  Query.page query = Some s ->
  getPaginationParams query = getPaginationParams (with_page None query)
  /\ page (getPaginationParams query) = 1.
Proof.
  intros Hs Hpage. unfold getPaginationParams. rewrite Hpage.
  cbn [with_page Query.page Query.limit default from_option id page].
  change (parseInt "undefined") with NaN.
  assert (Z.max 1 (or_else (parseInt s) 1) = 1) as ->; [|done].
  destruct Hs as [->|(z & -> & Hz)]; [done|].
  unfold or_else. rewrite bool_decide_eq_false_2 by lia. lia.
Qed.

Lemma paginate_with_page query page nodes :
  getPaginationParams (with_page page query) = getPaginationParams query ->
  NodeController.paginate (with_page page query) nodes
  = NodeController.paginate query nodes.
Proof. intros H. unfold NodeController.paginate. by rewrite H. Qed.

(** Whether the REST listing throws does not depend on [page]. *)
Lemma rest_getNodes_ok_any_page db query page1 page2 :
  is_ok (NodeController.getNodes db (with_page page1 query))
  = is_ok (NodeController.getNodes db (with_page page2 query)).
Proof.
  unfold NodeController.getNodes.
  destruct (Database.findAll db "nodes") as [found|]; simpl; [|done].
  destruct (Database.as_array found) as [nodes|]; simpl; [|done].
  change (NodeController.applyFilters (with_page page1 query) nodes)
    with (NodeController.applyFilters (with_page page2 query) nodes).
  by destruct (NodeController.applyFilters _ nodes).
Qed.

(** Whether the GraphQL listing throws does not depend on [after]. *)
Lemma graphql_getNodes_ok_any_after db args after1 after2 :
  is_ok (NodeResolvers.getNodes db (with_after after1 args))
  = is_ok (NodeResolvers.getNodes db (with_after after2 args)).
Proof.
  unfold NodeResolvers.getNodes.
  destruct (Database.findAll db "nodes") as [found|]; simpl; [|done].
  destruct (Database.as_array found) as [nodes|]; simpl; [|done].
  by destruct (NodeResolvers.applyFilters _ nodes).
Qed.

(** C3, as the code has it.  A [page] text that is non-numeric or negative
    gives page 1, the page of a request without [page].  An [after] that
    is left out, null or empty gives start index 0; a non-empty
    non-numeric [after] gives a [NaN] start index and with it an empty
    connection, and a numeric [after] is taken as it is read, negative or
    not.  The text of [page] or [after] never decides whether the listing
    throws. *)
Theorem page_defaults_after_does_not (s : string) :
  non_numeric s \/ negative s ->
  (forall query nodes, Query.page query = Some s ->
     page (getPaginationParams query) = 1
     /\ NodeController.paginate query nodes
        = NodeController.paginate (with_page None query) nodes)
  /\ (startIndex Omitted = Num 0 /\ startIndex ANull = Num 0
      /\ startIndex (Given EmptyString) = Num 0)
  /\ (non_numeric s -> s <> EmptyString -> forall first nodes,
        connection first (Given s) nodes
        = {| edges := [];
             pageInfo := {| hasNextPage := false; hasPreviousPage := false;
                            startCursor := None; endCursor := None |};
             totalCount := Z.of_nat (length nodes) |})
  /\ (forall z, parseInt s = Num z -> startIndex (Given s) = Num z)
  /\ (forall db query,
        is_ok (NodeController.getNodes db (with_page (Some s) query))
        = is_ok (NodeController.getNodes db (with_page None query)))
  /\ (forall db args,
        is_ok (NodeResolvers.getNodes db (with_after (Given s) args))
        = is_ok (NodeResolvers.getNodes db (with_after Omitted args))).
Proof.
  intros Hs. split_and!; try done.
  - intros query nodes Hpage.
    destruct (getPaginationParams_bad_page query s Hs Hpage) as [Heq H1].
    split; [done|]. unfold NodeController.paginate. by rewrite Heq.
  - intros Hnan Hne first nodes. apply connection_NaN.
    unfold startIndex. by rewrite bool_decide_eq_false_2.
  - intros z Hz. unfold startIndex. case_bool_decide; [|done].
    subst s. done.
  - intros db query. apply rest_getNodes_ok_any_page.
  - intros db args. apply graphql_getNodes_ok_any_after.
Qed.

Lemma page_defaults_after_does_not_witness :
  page (getPaginationParams (Fixture.paging (Some "abc") None)) = 1.
Proof.
  exact (proj1 (proj1 (page_defaults_after_does_not "abc" (or_introl eq_refl))
                  (Fixture.paging (Some "abc") None) [] eq_refl)).
Defined.

(** "abc" is non-numeric and "-1" negative, and neither behaves as the
    start index 0 of a request without [after]: over two nodes the first
    gives no edge, the second only the last node, the default both. *)
Lemma after_not_defaulted :
  non_numeric "abc" /\ negative "-1"
  /\ map node (edges (connection 10 (Given "abc") [Fixture.welcome; Fixture.goodbye])) = []
  /\ map node (edges (connection 10 (Given "-1") [Fixture.welcome; Fixture.goodbye]))
     = [Fixture.goodbye]
  /\ map node (edges (connection 10 Omitted [Fixture.welcome; Fixture.goodbye]))
     = [Fixture.welcome; Fixture.goodbye]
  /\ startIndex (Given "abc") <> Num 0 /\ startIndex (Given "-1") <> Num 0.
Proof.
  split_and!; try by vm_compute.
  exists (-1). by vm_compute.
Qed.

End Boundary.

(** ** The boolean filters of the REST listing *)

Section RestFlags.

Lemma strict_eq_VBool (v : value) (b : bool) :
  strict_eq v (VBool b) = true <-> v = VBool b.
Proof.
  destruct v; simpl; try (split; [done|by intros [=]]).
  rewrite bool_decide_eq_true. split; [by intros ->|by intros [= ->]].
Qed.

(** What the four filters keep comes from the input, in its order. *)
Lemma rest_applyFilters_sublist query nodes kept :
  NodeController.applyFilters query nodes = Ok kept -> sublist kept nodes.
Proof.
  unfold NodeController.applyFilters. intros H.
  destruct (match Query.name query with Some _ => _ | None => _ end)
    as [named|] eqn:Hname; simpl in H; [|done].
  injection H as <-.
  assert (sublist named nodes) as Hsub.
  { destruct (Query.name query) as [name|]; [|by injection Hname as <-].
    case_bool_decide; [by injection Hname as <-|].
    by eapply filterM_sublist. }
  etrans; [|exact Hsub].
  destruct (Query.colour query) as [colour|];
    [case_bool_decide|]; (etrans; [try apply filter_sublist; reflexivity|]);
    (destruct (Query.global query); (etrans; [try apply filter_sublist; reflexivity|]));
    (destruct (Query.root query); (etrans; [try apply filter_sublist; reflexivity|]));
    reflexivity.
Qed.

(** Every record the REST listing keeps under [root=q] has its [root]
    field strictly equal to the boolean [q === 'true']; likewise under
    [global=q]. *)
Lemma rest_flag_kept query nodes kept :
  NodeController.applyFilters query nodes = Ok kept ->
  (forall q, Query.root query = Some q ->
     forall n, n ∈ kept -> get "root" n = VBool (bool_decide (q = "true")))
  /\ (forall q, Query.global query = Some q ->
     forall n, n ∈ kept -> get "global" n = VBool (bool_decide (q = "true"))).
Proof.
  unfold NodeController.applyFilters. intros H.
  destruct (match Query.name query with Some _ => _ | None => _ end)
    as [named|]; simpl in H; [|done].
  injection H as <-.
  split; intros q Hq n Hn; rewrite Hq in Hn;
    destruct (Query.colour query) as [colour|];
    try case_bool_decide;
    repeat (apply elem_of_filter_bool in Hn as [Hn ?]);
    destruct (Query.global query), (Query.root query); simplify_eq;
    repeat (apply elem_of_filter_bool in Hn as [Hn ?]);
    by apply strict_eq_VBool.
Qed.

(** C10.  For every query value [q] other than "true": [root=q] alone
    selects exactly the nodes whose [root] field is [false], [global=q]
    alone exactly those whose [global] field is [false]; the value is not
    rejected, and whatever other filters the request carries, every node
    it returns has the field [false]. *)
Theorem rest_flag_other_than_true_selects_false (q : string)
    (nodes : list (gmap string value)) :
  q <> "true" ->
  NodeController.applyFilters (only_root q) nodes
    = Ok (List.filter (fun node => strict_eq (get "root" node) (VBool false)) nodes)
  /\ NodeController.applyFilters (only_global q) nodes
    = Ok (List.filter (fun node => strict_eq (get "global" node) (VBool false)) nodes)
  /\ (forall query kept,
        NodeController.applyFilters query nodes = Ok kept ->
        (Query.root query = Some q ->
           forall n, n ∈ kept -> get "root" n = VBool false)
        /\ (Query.global query = Some q ->
           forall n, n ∈ kept -> get "global" n = VBool false)).
Proof.
  intros Hq. split_and!.
  - unfold NodeController.applyFilters, only_root. simpl.
    by rewrite bool_decide_eq_false_2.
  - unfold NodeController.applyFilters, only_global. simpl.
    by rewrite bool_decide_eq_false_2.
  - intros query kept Hkept.
    destruct (rest_flag_kept query nodes kept Hkept) as [Hroot Hglobal].
    split; intros Hset n Hn.
    + rewrite (Hroot q Hset n Hn). by rewrite bool_decide_eq_false_2.
    + rewrite (Hglobal q Hset n Hn). by rewrite bool_decide_eq_false_2.
Qed.

Lemma rest_flag_other_than_true_selects_false_witness :
  NodeController.applyFilters (only_root "1")
    [Fixture.welcome; Fixture.goodbye; Fixture.leaf]
  = Ok [Fixture.goodbye; Fixture.leaf].
Proof.
  exact (proj1 (rest_flag_other_than_true_selects_false "1"
                  [Fixture.welcome; Fixture.goodbye; Fixture.leaf]
                  ltac:(discriminate))).
Defined.

(** The three states of the filter on the sample nodes. *)
Example rest_root_states :
  NodeController.applyFilters (only_root "true")
    [Fixture.welcome; Fixture.goodbye; Fixture.leaf] = Ok [Fixture.welcome]
  /\ NodeController.applyFilters (only_root "True")
    [Fixture.welcome; Fixture.goodbye; Fixture.leaf]
    = Ok [Fixture.goodbye; Fixture.leaf]
  /\ NodeController.applyFilters (Fixture.paging None None)
    [Fixture.welcome; Fixture.goodbye; Fixture.leaf]
    = Ok [Fixture.welcome; Fixture.goodbye; Fixture.leaf].
Proof. split_and!; by vm_compute. Qed.

End RestFlags.

(** ** The record store *)

Section Store.
Import Database.

Lemma lookup_member_plain {A} (o : gmap string A) (k : string) :
  k ∉ Object_prototype ->
  lookup_member o k = match o !! k with Some a => Own a | None => Missing end.
Proof.
  intros Hk. unfold lookup_member. destruct (o !! k); [done|].
  by rewrite bool_decide_eq_false_2.
Qed.

(** [find] on a loaded store, for a name the store object does not
    inherit. *)
Lemma find_loaded db d collection predicate :
  initialized db = true -> data db = Some d ->
  collection ∉ Object_prototype ->
  find db collection predicate = filterM predicate (records_of d collection).
Proof.
  intros Hinit Hdata Hname. unfold find, records_of.
  rewrite Hinit, Hdata, lookup_member_plain by done. simpl.
  by destruct (d !! collection).
Qed.

Lemma includes_elem_of (ids : list value) (v : value) :
  includes ids v = true <-> exists id, id ∈ ids /\ strict_eq id v = true.
Proof. apply existsb_elem_of. Qed.

Lemma includes_Permutation (ids ids' : list value) (v : value) :
  ids ≡ₚ ids' -> includes ids v = includes ids' v.
Proof.
  intros Hperm. apply eq_true_iff_eq. rewrite !includes_elem_of.
  by setoid_rewrite Hperm.
Qed.

(** C4, as the code has it.  On a store whose [initialized] flag is still
    false, [findAll], [find], [findOne], [findById],
    [findParentNodesByCompositeIds] and, for an array of ids, [findByIds]
    throw "Database not initialized", whatever the collection name;
    [findByIds] with ids that are no array returns the empty list. *)
Theorem queries_need_initialize (db : Database.t) :
  initialized db = false ->
  (forall collection, findAll db collection = Throw NotInitialized)
  /\ (forall collection predicate,
        find db collection predicate = Throw NotInitialized)
  /\ (forall collection predicate,
        findOne db collection predicate = Throw NotInitialized)
  /\ (forall collection id idField,
        findById db collection id idField = Throw NotInitialized)
  /\ (forall collection ids idField,
        findByIds db collection (VArr ids) idField = Throw NotInitialized)
  /\ (forall compositeIds,
        findParentNodesByCompositeIds db compositeIds = Throw NotInitialized)
  /\ (forall collection ids idField,
        (forall xs, ids <> VArr xs) ->
        findByIds db collection ids idField = Ok []).
Proof.
  intros Hinit.
  assert (forall collection predicate,
            find db collection predicate = Throw NotInitialized) as Hfind.
  { intros. unfold find. by rewrite Hinit. }
  split_and!; intros.
  - unfold findAll. by rewrite Hinit.
  - apply Hfind.
  - unfold findOne. by rewrite Hfind.
  - unfold findById, findOne. by rewrite Hfind.
  - unfold findByIds. apply Hfind.
  - unfold findParentNodesByCompositeIds. apply Hfind.
  - unfold findByIds. destruct ids; try done.
    match goal with H : forall xs, _ <> _ |- _ => by destruct (H xs) end.
Qed.

Lemma queries_need_initialize_witness :
  findAll Database.new "nodes" = Throw NotInitialized.
Proof.
  exact (proj1 (queries_need_initialize Database.new eq_refl) "nodes").
Defined.

(** A store is uninitialized when built and after a load that failed. *)
Lemma uninitialized_until_loaded :
  initialized Database.new = false
  /\ (forall e db, initialize (Throw e) db = Throw e)
  /\ (forall loaded db db', initialize (Ok loaded) db = Ok db' ->
        initialized db' = true /\ data db' = Some loaded).
Proof.
  split_and!; try done. intros loaded db db' [= <-]. done.
Qed.

(** [findByIds] with ids that are no array returns the empty list on a
    store that was never initialized. *)
Lemma findByIds_before_initialize_returns :
  initialized Database.new = false
  /\ findByIds Database.new "responses" VNull None = Ok []
  /\ findByIds Database.new "responses" VUndefined None = Ok []
  /\ findByIds Database.new "responses" (VStr "x") None = Ok [].
Proof. done. Qed.

(** C8.  On a loaded store, for every collection name (the store object
    inherits none of them) and every list of ids: [findByIds] returns the
    records whose [_id] the list includes, as a sub-sequence of the
    collection; the result does not change when the ids are reordered, nor
    when an id that no record carries is added. *)
Theorem findByIds_store_order (db : Database.t)
    (d : gmap string (list (gmap string value)))
    (collection : string) (ids : list value) :
  initialized db = true -> data db = Some d ->
  collection ∉ Object_prototype ->
  exists found,
    findByIds db collection (VArr ids) None = Ok found
    /\ found = List.filter (fun record => includes ids (get "_id" record))
                 (records_of d collection)
    /\ sublist found (records_of d collection)
    /\ (forall record,
          record ∈ found <->
          record ∈ records_of d collection
          /\ exists id, id ∈ ids /\ strict_eq id (get "_id" record) = true)
    /\ (forall ids', ids ≡ₚ ids' ->
          findByIds db collection (VArr ids') None = Ok found)
    /\ (forall unknown,
          (forall record, record ∈ records_of d collection ->
             strict_eq unknown (get "_id" record) = false) ->
          findByIds db collection (VArr (unknown :: ids)) None = Ok found).
Proof.
  intros Hinit Hdata Hname.
  assert (forall xs, findByIds db collection (VArr xs) None
            = Ok (List.filter (fun record => includes xs (get "_id" record))
                    (records_of d collection))) as Hfind.
  { intros xs. unfold findByIds. simpl.
    rewrite (find_loaded db d) by done. apply filterM_pure. }
  eexists. split; [apply Hfind|]. split_and!.
  - done.
  - apply filter_sublist.
  - intros record. rewrite elem_of_filter_bool. by rewrite includes_elem_of.
  - intros ids' Hperm. rewrite Hfind. f_equal.
    apply filter_bool_ext. intros record _. symmetry.
    by apply includes_Permutation.
  - intros unknown Hunknown. rewrite Hfind. f_equal.
    apply filter_bool_ext. intros record Hin. unfold includes. simpl.
    by rewrite (Hunknown record Hin).
Qed.

Lemma findByIds_store_order_witness :
  exists found,
    findByIds Fixture.db "responses" (VArr [VStr "z"; VStr "y"; VStr "x"]) None
      = Ok found
    /\ found = [Fixture.response "x"; Fixture.response "z"].
Proof.
  destruct (findByIds_store_order Fixture.db Fixture.store "responses"
              [VStr "z"; VStr "y"; VStr "x"] eq_refl eq_refl
              ltac:(refine (bool_decide_unpack _ _); by vm_compute))
    as (found & Hfound & Heq & _).
  exists found. split; [exact Hfound|exact Heq].
Defined.

(** The scenario of the specification: 'y' is in no record. *)
Example findByIds_skips_unknown :
  findByIds Fixture.db "responses" (VArr [VStr "x"; VStr "y"]) None
  = Ok [Fixture.response "x"].
Proof. by vm_compute. Qed.

End Store.

(** ** Parents by composite id *)

Section Parents.
Import Database.

Lemma filterM_total_on {A} (p : A -> result bool) (q : A -> bool) (xs : list A) :
  (forall x, x ∈ xs -> p x = Ok (q x)) -> filterM p xs = Ok (List.filter q xs).
Proof.
  induction xs as [|x xs IH]; intros H; simpl; [done|].
  rewrite (H x) by left. simpl. rewrite IH by (intros y Hy; apply H; by right).
  simpl. by destruct (q x).
Qed.

Lemma get_children (node : gmap string value) :
  get "children" node = default VUndefined (node !! "children").
Proof. unfold get. rewrite lookup_member_plain; [by destruct (node !! _)|].
       refine (bool_decide_unpack _ _). by vm_compute. Qed.

(** A composite id that is no array stands for the one-element list. *)
Lemma findParents_single db (id : value) :
  (forall ids, id <> VArr ids) ->
  findParentNodesByCompositeIds db id = findParentNodesByCompositeIds db (VArr [id]).
Proof. intros H. destruct id; try done. by destruct (H xs). Qed.

(** C7.  On a loaded store whose nodes have a [children] field that is
    absent, null or an array: for every list of composite ids,
    [findParentNodesByCompositeIds] returns, in store order, exactly the
    nodes whose [children] array contains one of the ids; the list is
    empty when no node references any of them, and a node without a
    [children] field is never in it. *)
Theorem findParents_by_children (db : Database.t)
    (d : gmap string (list (gmap string value))) (ids : list value) :
  initialized db = true -> data db = Some d ->
  Forall children_typed (records_of d "nodes") ->
  exists parents,
    findParentNodesByCompositeIds db (VArr ids) = Ok parents
    /\ parents = List.filter (references ids) (records_of d "nodes")
    /\ sublist parents (records_of d "nodes")
    /\ (forall node,
          node ∈ parents <->
          node ∈ records_of d "nodes"
          /\ exists children child id,
               node !! "children" = Some (VArr children)
               /\ child ∈ children /\ id ∈ ids /\ strict_eq id child = true)
    /\ ((forall node, node ∈ records_of d "nodes" -> references ids node = false) ->
        parents = [])
    /\ (forall node, node ∈ parents -> node !! "children" <> None).
Proof.
  intros Hinit Hdata Htyped.
  assert ("nodes" ∉ Object_prototype) as Hname
    by (refine (bool_decide_unpack _ _); by vm_compute).
  assert (forall node, references ids node = true <->
            exists children child id,
              node !! "children" = Some (VArr children)
              /\ child ∈ children /\ id ∈ ids /\ strict_eq id child = true) as Href.
  { intros node. unfold references.
    destruct (node !! "children") as [[]|] eqn:E;
      try (split; [done|by intros (? & ? & ? & [=] & _)]).
    rewrite existsb_elem_of. split.
    - intros (child & Hchild & Hinc). apply includes_elem_of in Hinc as (id & ? & ?).
      by exists xs, child, id.
    - intros (children & child & id & [= <-] & ? & ? & ?).
      exists child. split; [done|]. apply includes_elem_of. by exists id. }
  eexists. split.
  { unfold findParentNodesByCompositeIds. rewrite (find_loaded db d) by done.
    apply (filterM_total_on _ (references ids)).
    intros node Hnode. rewrite Forall_forall in Htyped.
    specialize (Htyped node Hnode). unfold children_typed in Htyped.
    unfold references. rewrite get_children in *.
    by destruct (node !! "children") as [[]|]. }
  split_and!.
  - done.
  - apply filter_sublist.
  - intros node. by rewrite elem_of_filter_bool, Href.
  - apply filter_bool_nil.
  - intros node [_ Hnode]%elem_of_filter_bool Hnone.
    unfold references in Hnode. by rewrite Hnone in Hnode.
Qed.

Lemma findParents_by_children_witness :
  exists parents,
    findParentNodesByCompositeIds Fixture.db (VArr [VStr "n3"]) = Ok parents
    /\ parents = [Fixture.welcome; Fixture.goodbye].
Proof.
  destruct (findParents_by_children Fixture.db Fixture.store [VStr "n3"]
              eq_refl eq_refl ltac:(repeat constructor))
    as (parents & Hparents & Heq & _).
  exists parents. split; [exact Hparents|exact Heq].
Defined.

(** On the sample nodes: "n2" is a child of [welcome] only, and nobody
    lists "n1". *)
Example findParents_samples :
  findParentNodesByCompositeIds Fixture.db (VArr [VStr "n2"]) = Ok [Fixture.welcome]
  /\ findParentNodesByCompositeIds Fixture.db (VStr "n2") = Ok [Fixture.welcome]
  /\ findParentNodesByCompositeIds Fixture.db (VArr [VStr "n1"]) = Ok [].
Proof. split_and!; by vm_compute. Qed.

End Parents.

(** ** Roles and permissions *)

Section Auth.
Import AuthService.

Local Abbreviation user id mail r :=
  (Some {| userId := id; email := mail; role := r |}).

(** [hasRole] between two of the three roles compares their levels. *)
Lemma hasRole_levels (id mail : string) (x y : Role) :
  hasRole (user id mail (role_name x)) (role_name y)
  = bool_decide (role_level x >= role_level y).
Proof. by destruct x, y. Qed.

(** C9.  Over guest(0) < user(1) < admin(2): every role satisfies itself,
    admin satisfies guest, guest does not satisfy admin, [hasRole] holds
    exactly when the level of the user's role is at least the required
    level, and so it passes from a required role to every lower one. *)
Theorem hasRole_total_order (id mail : string) :
  (forall x : Role, hasRole (user id mail (role_name x)) (role_name x) = true)
  /\ hasRole (user id mail USER_ROLES.ADMIN) USER_ROLES.GUEST = true
  /\ hasRole (user id mail USER_ROLES.GUEST) USER_ROLES.ADMIN = false
  /\ (role_level GUEST < role_level USER < role_level ADMIN)
  /\ (forall x y : Role,
        hasRole (user id mail (role_name x)) (role_name y) = true
        <-> role_level x >= role_level y)
  /\ (forall x y z : Role,
        hasRole (user id mail (role_name x)) (role_name y) = true ->
        role_level z <= role_level y ->
        hasRole (user id mail (role_name x)) (role_name z) = true).
Proof.
  split_and!; try done.
  - by intros [].
  - intros x y. by rewrite hasRole_levels, bool_decide_eq_true.
  - intros x y z. rewrite !hasRole_levels, !bool_decide_eq_true. lia.
Qed.

(** A null user and a user without a role satisfy nothing. *)
Lemma hasRole_needs_role (id mail required : string) :
  hasRole None required = false /\ hasRole (user id mail EmptyString) required = false.
Proof. done. Qed.

(** Names that [roleHierarchy] inherits are no role: as the user's role
    they fail even the guest requirement. *)
Example hasRole_inherited_name :
  hasRole (user "u" "m" "constructor") USER_ROLES.GUEST = false
  /\ hasRole (user "u" "m" "visitor") USER_ROLES.GUEST = true.
Proof. by vm_compute. Qed.

Lemma userPermissions_lookup (resource : string) :
  userPermissions !! resource =
    if bool_decide (resource ∈ ["nodes"; "triggers"; "actions"; "responses"])
    then Some ["read"; "write"]
    else if bool_decide (resource = "resourceTemplates") then Some ["read"]
    else None.
Proof.
  destruct (decide (resource = "nodes")) as [->|H1]; [by vm_compute|].
  destruct (decide (resource = "triggers")) as [->|H2]; [by vm_compute|].
  destruct (decide (resource = "actions")) as [->|H3]; [by vm_compute|].
  destruct (decide (resource = "responses")) as [->|H4]; [by vm_compute|].
  destruct (decide (resource = "resourceTemplates")) as [->|H5]; [by vm_compute|].
  unfold userPermissions.
  rewrite !lookup_insert_ne, lookup_empty by done.
  rewrite bool_decide_eq_false_2 by (rewrite !elem_of_cons, elem_of_nil; tauto).
  by rewrite bool_decide_eq_false_2.
Qed.

(** C5, as the code has it.  [hasPermission] returns the entry of the
    table [permitted]: an admin gets true for every resource name and
    action, a guest gets true exactly for the action read on every
    resource name, a user gets read and write on nodes, triggers, actions
    and responses, read on resourceTemplates, and false on every other
    resource name; any other role gets false.  For a user the resource
    name is one the table object does not inherit.  A null user gets
    false. *)
Theorem hasPermission_table (id mail r resource : string) (action : option string) :
  r <> USER_ROLES.USER \/ resource ∉ Object_prototype ->
  hasPermission (user id mail r) resource action
  = Ok (permitted r resource (default "read" action))
  /\ hasPermission None resource action = Ok false.
Proof.
  intros Hside. split; [|done]. unfold hasPermission, permitted. cbn [role].
  change USER_ROLES.ADMIN with "admin". change USER_ROLES.USER with "user" in *.
  change USER_ROLES.GUEST with "guest".
  destruct (bool_decide (r = "admin")) eqn:Hadmin; [done|].
  apply bool_decide_eq_false in Hadmin.
  destruct (bool_decide (r = "user")) eqn:Huser.
  - apply bool_decide_eq_true in Huser. subst r.
    rewrite (bool_decide_eq_false_2 ("user" = "guest")) by done.
    destruct Hside as [?|Hres]; [done|].
    rewrite lookup_member_plain, userPermissions_lookup by done.
    destruct (bool_decide (resource ∈ _)) eqn:Hrow.
    + apply bool_decide_eq_true in Hrow.
      rewrite (bool_decide_eq_false_2 (resource = "resourceTemplates")).
      * simpl. by rewrite orb_false_r.
      * intros ->. revert Hrow. rewrite !elem_of_cons, elem_of_nil.
        intuition discriminate.
    + destruct (bool_decide (resource = "resourceTemplates")); simpl; [|done].
      f_equal. apply bool_decide_ext. by rewrite list_elem_of_singleton.
  - by destruct (bool_decide (r = "guest")).
Qed.

Lemma hasPermission_table_witness :
  hasPermission (user "u1" "u1@example.com" "user") "resourceTemplates" (Some "write")
  = Ok false.
Proof.
  refine (proj1 (hasPermission_table "u1" "u1@example.com" "user"
                   "resourceTemplates" (Some "write") _)).
  right. refine (bool_decide_unpack _ _). by vm_compute.
Defined.

(** A resource name outside the five collections: true for an admin, and
    for a guest who reads. *)
Lemma hasPermission_unknown_resource_granted :
  ("widgets" ∉ ["nodes"; "triggers"; "actions"; "responses"; "resourceTemplates"])
  /\ hasPermission (user "a1" "admin@example.com" USER_ROLES.ADMIN) "widgets" (Some "write")
     = Ok true
  /\ hasPermission (user "g1" "guest@example.com" USER_ROLES.GUEST) "widgets" None
     = Ok true.
Proof.
  split; [|by vm_compute]. refine (bool_decide_unpack _ _). by vm_compute.
Qed.

(** The rows of the table on the five collections. *)
Example hasPermission_rows :
  hasPermission (user "u" "m" "user") "nodes" (Some "write") = Ok true
  /\ hasPermission (user "u" "m" "user") "resourceTemplates" (Some "read") = Ok true
  /\ hasPermission (user "u" "m" "user") "resourceTemplates" (Some "write") = Ok false
  /\ hasPermission (user "u" "m" "user") "widgets" None = Ok false
  /\ hasPermission (user "u" "m" "guest") "nodes" (Some "write") = Ok false
  /\ hasPermission (user "u" "m" "admin") "resourceTemplates" (Some "delete") = Ok true
  /\ hasPermission (user "u" "m" "user") "toString" None = Throw TypeError.
Proof. split_and!; by vm_compute. Qed.

End Auth.

(** ** The two node listings, end to end *)

Section Listings.
Import BaseController Connection.

(** Without filters, [GET /nodes?page=p&limit=L] and
    [nodes(first: L, after: "(p-1)*L")] over one store return the same
    records, or throw the same exception. *)
Corollary listings_agree_unfiltered (db : Database.t) (p L : Z) :
  1 <= p -> 1 <= L <= 100 ->
  match NodeController.getNodes db
          (Fixture.paging (Some (toString (Num p))) (Some (toString (Num L)))),
        NodeResolvers.getNodes db
          {| first := Given L; after := Given (toString (Num ((p - 1) * L)));
             filter := Omitted |}
  with
  | Ok response, Ok c => data response = map node (edges c)
  | Throw e, Throw e' => e = e'
  | _, _ => False
  end.
Proof.
  intros Hp HL. unfold NodeController.getNodes, NodeResolvers.getNodes.
  destruct (Database.findAll db "nodes") as [found|]; cbn [bind]; [|done].
  destruct (Database.as_array found) as [nodes|]; cbn [bind]; [|done].
  change (NodeController.applyFilters _ nodes) with (Ok nodes).
  change (NodeResolvers.applyFilters _ nodes) with (Ok nodes).
  cbn [bind filter first after first_of].
  rewrite connection_nodes. unfold NodeController.paginate.
  rewrite (getPaginationParams_decimal _ p L) by done.
  unfold createPaginatedResponse, startIndex. cbn [data offset limit page].
  rewrite bool_decide_eq_false_2 by apply toString_nonempty.
  by rewrite parseInt_toString.
Qed.

(** [limit=0] reads as the default 10 where [first: 0] asks for nothing. *)
Example limit_zero_is_default :
  getPaginationParams (Fixture.paging (Some "1") (Some "0"))
    = {| page := 1; limit := 10; offset := 0 |}
  /\ data (NodeController.paginate (Fixture.paging (Some "1") (Some "0"))
             [Fixture.welcome]) = [Fixture.welcome]
  /\ map node (edges (connection 0 (Given "0") [Fixture.welcome])) = [].
Proof. split_and!; by vm_compute. Qed.

End Listings.
